(** * Xiaomi vacuum entity adapter ([vacuum.py]): a shallow embedding

    The adapter [MiroboVacuum] polls a device client ([DreameVacuum]) and
    exposes the last snapshot through read-only properties; its commands
    forward to the device client behind a common error guard.

    The Python program is embedded as follows.
    - Python values that flow through the adapter are [py.val]
      ([None], integers, ASCII strings); a [dict] is an association list in
      insertion order, because [list(d)] exposes that order.
    - Exceptions, the logger and the calls made on the device client are
      effects: a computation is a function from a [world] (the adapter
      object, the trace of device calls, the log) to a result and a new
      world.  A raised exception keeps the world reached so far.
    - [hass.async_add_executor_job] runs the given function and hands back
      its result or its exception; [await] is sequencing. *)

From Stdlib Require Import ZArith List String Ascii Bool Lia.
Import ListNotations.
Local Open Scope Z_scope.
Local Open Scope string_scope.
Local Open Scope list_scope.

(* ================================================================== *)
(** ** The fragment of Python the adapter relies on *)
(* ================================================================== *)

Module py.

(** Values: [None], [int], [str]. *)
Inductive val : Type :=
| VNone
| VInt (z : Z)
| VStr (s : string).

(** [==] on values; an [int] never equals a [str]. *)
Definition eqb (a b : val) : bool :=
  match a, b with
  | VNone, VNone => true
  | VInt x, VInt y => Z.eqb x y
  | VStr s, VStr t => String.eqb s t
  | _, _ => false
  end.

Definition is_not_None (v : val) : bool :=
  match v with VNone => false | _ => true end.

(** Exception classes.  [ConnectionError] and [TimeoutError] are
    built-in subclasses of [OSError]. *)
Inductive exn_class : Type :=
| OSError
| ConnectionError
| TimeoutError
| DeviceException
| ValueError
| KeyError
| TypeError.

(** Modelled from the spec: the class [DeviceException] is declared in
    the package's [miio] module, which is not part of the sources at hand.
    The spec names two error kinds, the device-communication failure
    ([DeviceException]) and the low-level I/O failure ([OSError]); they are
    kept apart here: [DeviceException] derives from neither [OSError] nor
    any other class of this list. *)
Definition issubclass (c d : exn_class) : bool :=
  match c, d with
  | OSError, OSError
  | ConnectionError, ConnectionError
  | TimeoutError, TimeoutError
  | DeviceException, DeviceException
  | ValueError, ValueError
  | KeyError, KeyError
  | TypeError, TypeError => true
  | ConnectionError, OSError
  | TimeoutError, OSError => true
  | _, _ => false
  end.

(** An exception instance: its class and its argument (the offending
    value or the message). *)
Record exn : Type := Exn { exn_cls : exn_class; exn_arg : val }.

Definition isinstance (e : exn) (c : exn_class) : bool :=
  issubclass (exn_cls e) c.

Inductive result (A : Type) : Type :=
| Ok (a : A)
| Raise (e : exn).
Arguments Ok {A} a.
Arguments Raise {A} e.

(** *** [int(x)] *)

(** Whitespace skipped by [int] around an ASCII literal:
    tab, newline, vertical tab, form feed, carriage return, space. *)
Definition is_space (c : ascii) : bool :=
  let n := nat_of_ascii c in
  (((9 <=? n) && (n <=? 13)) || (n =? 32))%nat.

Definition digit_of (c : ascii) : option Z :=
  let n := nat_of_ascii c in
  if ((48 <=? n) && (n <=? 57))%nat then Some (Z.of_nat n - 48) else None.

Definition is_underscore (c : ascii) : bool := (nat_of_ascii c =? 95)%nat.

(** Default of the interpreter's limit on the number of digits of a
    decimal literal converted by [int]. *)
Definition max_str_digits : nat := 4300.

(** Digits with single underscores between them.  [acc] is the value
    read so far, [n] the number of digits read, [prev] tells whether the
    previous character was a digit. *)
Fixpoint digits (acc : Z) (n : nat) (prev : bool) (l : list ascii)
  : option (Z * nat) :=
  match l with
  | [] => if prev then Some (acc, n) else None
  | c :: r =>
      match digit_of c with
      | Some d => digits (10 * acc + d) (S n) true r
      | None => if is_underscore c && prev then digits acc n false r
                else None
      end
  end.

Fixpoint lstrip (l : list ascii) : list ascii :=
  match l with
  | c :: r => if is_space c then lstrip r else l
  | [] => []
  end.

Definition strip (l : list ascii) : list ascii :=
  rev (lstrip (rev (lstrip l))).

Definition unsigned_literal (l : list ascii) : option Z :=
  match digits 0 0 false l with
  | Some (z, n) => if (n <=? max_str_digits)%nat then Some z else None
  | None => None
  end.

(** The integer denoted by a base-10 literal, if it is one:
    surrounding whitespace, an optional sign, digits. *)
Definition int_of_str (s : string) : option Z :=
  match strip (list_ascii_of_string s) with
  | c :: r =>
      if (nat_of_ascii c =? 43)%nat then unsigned_literal r
      else if (nat_of_ascii c =? 45)%nat then option_map Z.opp (unsigned_literal r)
      else unsigned_literal (c :: r)
  | [] => None
  end.

(** [int(v)]: an [int] is returned as it is, a [str] is parsed
    ([ValueError] when it is no literal), [None] is a [TypeError]. *)
Definition int (v : val) : result Z :=
  match v with
  | VInt z => Ok z
  | VStr s =>
      match int_of_str s with
      | Some z => Ok z
      | None => Raise (Exn ValueError v)
      end
  | VNone => Raise (Exn TypeError v)
  end.

(** *** [dict] *)

Definition dict : Type := list (val * val).

(** [k in d] *)
Fixpoint contains (d : dict) (k : val) : bool :=
  match d with
  | [] => false
  | (k', _) :: r => eqb k' k || contains r k
  end.

(** [d[k]], raising [KeyError(k)] *)
Fixpoint getitem (d : dict) (k : val) : result val :=
  match d with
  | [] => Raise (Exn KeyError k)
  | (k', v) :: r => if eqb k' k then Ok v else getitem r k
  end.

(** [d[k] = v]: an existing key keeps its place, a new one goes last. *)
Fixpoint setitem (d : dict) (k v : val) : dict :=
  match d with
  | [] => [(k, v)]
  | (k', v') :: r => if eqb k' k then (k', v) :: r else (k', v') :: setitem r k v
  end.

(** [d.items()] is the association list itself; [list(d)] its keys. *)
Definition items (d : dict) : list (val * val) := d.
Definition keys (d : dict) : list val := map fst d.

(** Truth value of an optional dict: [None] and [{}] are false. *)
Definition truthy (d : option dict) : bool :=
  match d with
  | Some (_ :: _) => true
  | _ => false
  end.

(** [k in d] and [d[k]] where [d] may be [None]: both raise [TypeError]
    on [None]. *)
Definition in_ (k : val) (d : option dict) : result bool :=
  match d with
  | Some d => Ok (contains d k)
  | None => Raise (Exn TypeError (VStr "argument of type 'NoneType' is not iterable"))
  end.

Definition subscript (d : option dict) (k : val) : result val :=
  match d with
  | Some d => getitem d k
  | None => Raise (Exn TypeError (VStr "'NoneType' object is not subscriptable"))
  end.

(** [{v: k for k, v in d.items()}] *)
Definition inverted (d : dict) : dict :=
  fold_left (fun acc kv => setitem acc (snd kv) (fst kv)) (items d) [].

End py.

Import py.

(* ================================================================== *)
(** ** The device client, as the adapter sees it *)
(* ================================================================== *)

Module miio.

(** The object returned by [status()]: the ten attributes [update] reads. *)
Record Status : Type := {
  status : val;
  battery : val;
  total_clean_count : val;
  fan_speed : val;
  brush_left_time : val;
  brush_life_level : val;
  brush_left_time2 : val;
  brush_life_level2 : val;
  filter_life_level : val;
  filter_left_time : val
}.

(** The methods the commands forward to. *)
Inductive command : Type :=
| find
| start
| stop
| return_home
| set_fan_speed (code : val).

Inductive call : Type :=
| status_call
| command_call (c : command).

(** A device client: what each call returns or raises, given the calls
    made on it before.  The value returned by a command is never used by
    the adapter. *)
Record DreameVacuum : Type := {
  on_status : list call -> result Status;
  on_command : list call -> command -> result unit
}.

End miio.

(* ================================================================== *)
(** ** Constants of [vacuum.py] *)
(* ================================================================== *)

(** Modelled from the spec: the state labels are constants of the host
    platform ([homeassistant.components.vacuum]), imported by [vacuum.py];
    the spec names them cleaning, idle, paused, error, returning, docked. *)
Definition STATE_CLEANING : string := "cleaning".
Definition STATE_IDLE : string := "idle".
Definition STATE_PAUSED : string := "paused".
Definition STATE_ERROR : string := "error".
Definition STATE_RETURNING : string := "returning".
Definition STATE_DOCKED : string := "docked".

Definition ATTR_FAN_SPEED : string := "fan_speed".
Definition ATTR_MAIN_BRUSH_LEFT_TIME : string := "main_brush_time_left".
Definition ATTR_MAIN_BRUSH_LIFE_LEVEL : string := "main_brush_life_level".
Definition ATTR_SIDE_BRUSH_LEFT_TIME : string := "side_brush_time_left".
Definition ATTR_SIDE_BRUSH_LIFE_LEVEL : string := "side_brush_life_level".
Definition ATTR_FILTER_LIFE_LEVEL : string := "filter_life_level".
Definition ATTR_FILTER_LEFT_TIME : string := "filter_left_time".
Definition ATTR_CLEANING_TOTAL_TIME : string := "total_cleaning_count".

Definition STATE_CODE_TO_STATE : dict :=
  [ (VInt 1, VStr STATE_CLEANING);
    (VInt 2, VStr STATE_IDLE);
    (VInt 3, VStr STATE_PAUSED);
    (VInt 4, VStr STATE_ERROR);
    (VInt 5, VStr STATE_RETURNING);
    (VInt 6, VStr STATE_DOCKED) ].

Definition SPEED_CODE_TO_NAME : dict :=
  [ (VInt 0, VStr "Silent");
    (VInt 1, VStr "Standard");
    (VInt 2, VStr "Medium");
    (VInt 3, VStr "Turbo") ].

(* ================================================================== *)
(** ** The adapter object and the effects around it *)
(* ================================================================== *)

(** The attributes of a [MiroboVacuum]; a dict attribute that may hold
    [None] is an [option]. *)
Record MiroboVacuum : Type := {
  _name : val;
  _vacuum : miio.DreameVacuum;
  _fan_speeds : option dict;
  _fan_speeds_reverse : option dict;
  vacuum_state : val;
  battery_percentage : val;
  _current_fan_speed : val;
  _main_brush_time_left : val;
  _main_brush_life_level : val;
  _side_brush_time_left : val;
  _side_brush_life_level : val;
  _filter_life_level : val;
  _filter_left_time : val;
  _total_clean_count : val
}.

(** [MiroboVacuum.__init__] *)
Definition __init__ (name : val) (vacuum : miio.DreameVacuum) : MiroboVacuum :=
  {| _name := name;
     _vacuum := vacuum;
     _fan_speeds := None;
     _fan_speeds_reverse := None;
     vacuum_state := VNone;
     battery_percentage := VNone;
     _current_fan_speed := VNone;
     _main_brush_time_left := VNone;
     _main_brush_life_level := VNone;
     _side_brush_time_left := VNone;
     _side_brush_life_level := VNone;
     _filter_life_level := VNone;
     _filter_left_time := VNone;
     _total_clean_count := VNone |}.

(** One call on [_LOGGER]: the level, the format string, the arguments. *)
Inductive log_level : Type := ERROR | DEBUG.

Inductive log_arg : Type :=
| AVal (v : val)
| AList (l : list val)
| AExn (e : exn).

Record log_entry : Type := {
  level : log_level;
  fmt : string;
  args : list log_arg
}.

(** The adapter object, the calls made on the device client (oldest
    first) and the log (oldest first). *)
Record world : Type := {
  self : MiroboVacuum;
  calls : list miio.call;
  log : list log_entry
}.

(** Computations: state passing with exceptions. *)
Definition M (A : Type) : Type := world -> result A * world.

Definition ret {A : Type} (a : A) : M A := fun w => (Ok a, w).

Definition bind {A B : Type} (m : M A) (k : A -> M B) : M B :=
  fun w =>
    match m w with
    | (Ok a, w') => k a w'
    | (Raise e, w') => (Raise e, w')
    end.

Notation "x <- m ;; k" := (bind m (fun x => k))
  (at level 61, m at next level, right associativity).
Notation "m ;;; k" := (bind m (fun _ => k))
  (at level 61, right associativity).

(** An operation of the language that returns or raises. *)
Definition lift {A : Type} (r : result A) : M A := fun w => (r, w).

(** [try: body  except cls as exc: handler exc] *)
Definition try_except {A : Type} (body : M A) (cls : exn_class)
  (handler : exn -> M A) : M A :=
  fun w =>
    match body w with
    | (Ok a, w') => (Ok a, w')
    | (Raise e, w') => if isinstance e cls then handler e w' else (Raise e, w')
    end.

Definition get_self : M MiroboVacuum := fun w => (Ok (self w), w).

Definition set_self (s : MiroboVacuum) : M unit :=
  fun w => (Ok tt, {| self := s; calls := calls w; log := log w |}).

(** The world after one more device call, after one more log entry. *)
Definition called (w : world) (c : miio.call) : world :=
  {| self := self w; calls := calls w ++ [c]; log := log w |}.

Definition logged (w : world) (e : log_entry) : world :=
  {| self := self w; calls := calls w; log := log w ++ [e] |}.

Definition emit (e : log_entry) : M unit :=
  fun w => (Ok tt, logged w e).

Definition _LOGGER_error (msg : string) (a : list log_arg) : M unit :=
  emit {| level := ERROR; fmt := msg; args := a |}.

Definition _LOGGER_debug (msg : string) (a : list log_arg) : M unit :=
  emit {| level := DEBUG; fmt := msg; args := a |}.

(** [self._vacuum.status()] *)
Definition vacuum_status : M miio.Status :=
  fun w =>
    (miio.on_status (_vacuum (self w)) (calls w), called w miio.status_call).

(** [await self.hass.async_add_executor_job(partial(func, *args))] for a
    method [func] of [self._vacuum]. *)
Definition async_add_executor_job (func : miio.command) : M unit :=
  fun w =>
    (miio.on_command (_vacuum (self w)) (calls w) func,
     called w (miio.command_call func)).

(* ================================================================== *)
(** ** Properties of [MiroboVacuum] *)
(* ================================================================== *)

(** [name] *)
Definition name : M val :=
  self <- get_self ;;
  ret (_name self).

(** [state]: the label of the stored status code; a code without a label
    is logged and the property returns [None]. *)
Definition state : M val :=
  self <- get_self ;;
  if is_not_None (vacuum_state self) then
    try_except
      (code <- lift (py.int (vacuum_state self)) ;;
       lift (getitem STATE_CODE_TO_STATE (VInt code)))
      KeyError
      (fun _ =>
         _LOGGER_error "STATE_CODE not supported: %s" [AVal (vacuum_state self)] ;;;
         ret VNone)
  else ret VNone.

(** [battery_level] *)
Definition battery_level : M val :=
  self <- get_self ;;
  if is_not_None (vacuum_state self) then ret (battery_percentage self)
  else ret VNone.

(** [fan_speed] *)
Definition fan_speed : M val :=
  self <- get_self ;;
  if is_not_None (vacuum_state self) then
    let speed := _current_fan_speed self in
    found <- lift (in_ speed (_fan_speeds_reverse self)) ;;
    if (found : bool) then lift (subscript (_fan_speeds_reverse self) speed)
    else
      _LOGGER_debug "Unable to find reverse for %s" [AVal speed] ;;;
      ret speed
  else ret VNone.

(** [fan_speed_list]: [list(self._fan_speeds) if self._fan_speeds else []] *)
Definition fan_speed_list : M (list val) :=
  self <- get_self ;;
  if truthy (_fan_speeds self) then
    ret (match _fan_speeds self with Some d => keys d | None => [] end)
  else ret [].

(** [device_state_attributes]: a dict with eight fixed keys, or [None]. *)
Definition device_state_attributes : M (option dict) :=
  self <- get_self ;;
  if is_not_None (vacuum_state self) then
    ret (Some
      [ (VStr ATTR_FAN_SPEED, _current_fan_speed self);
        (VStr ATTR_MAIN_BRUSH_LEFT_TIME, _main_brush_time_left self);
        (VStr ATTR_MAIN_BRUSH_LIFE_LEVEL, _main_brush_life_level self);
        (VStr ATTR_SIDE_BRUSH_LEFT_TIME, _side_brush_time_left self);
        (VStr ATTR_SIDE_BRUSH_LIFE_LEVEL, _side_brush_life_level self);
        (VStr ATTR_FILTER_LIFE_LEVEL, _filter_life_level self);
        (VStr ATTR_FILTER_LEFT_TIME, _filter_left_time self);
        (VStr ATTR_CLEANING_TOTAL_TIME, _total_clean_count self) ])
  else ret None.

(* ================================================================== *)
(** ** Commands *)
(* ================================================================== *)

(** [_try_command(mask_error, func, *args)]: the common guard. *)
Definition _try_command (mask_error : string) (func : miio.command) : M bool :=
  try_except
    (async_add_executor_job func ;;;
     ret true)
    DeviceException
    (fun exc =>
       _LOGGER_error mask_error [AExn exc] ;;;
       ret false).

Definition async_locate : M unit :=
  _try_command "Unable to locate the botvac: %s" miio.find ;;;
  ret tt.

Definition async_start : M unit :=
  _try_command "Unable to start the vacuum: %s" miio.start ;;;
  ret tt.

Definition async_stop : M unit :=
  _try_command "Unable to stop: %s" miio.stop ;;;
  ret tt.

Definition async_pause : M unit :=
  _try_command "Unable to set start/pause: %s" miio.stop ;;;
  ret tt.

Definition async_return_to_base : M unit :=
  _try_command "Unable to return home: %s" miio.return_home ;;;
  ret tt.

(** The first statement of [async_set_fan_speed]: the value bound to
    [fan_speed] when control reaches the device call, or nothing when the
    method has returned from the [except] branch. *)
Definition resolve_fan_speed (fan_speed : val) : M (option val) :=
  self <- get_self ;;
  known <- lift (in_ fan_speed (_fan_speeds self)) ;;
  if (known : bool) then
    code <- lift (subscript (_fan_speeds self) fan_speed) ;;
    ret (Some code)
  else
    try_except
      (n <- lift (py.int fan_speed) ;;
       ret (Some (VInt n)))
      ValueError
      (fun exc =>
         speeds <- fan_speed_list ;;
         _LOGGER_error "Fan speed step not recognized (%s). Valid speeds are: %s"
           [AExn exc; AList speeds] ;;;
         ret None).

(** [async_set_fan_speed(fan_speed)] *)
Definition async_set_fan_speed (fan_speed : val) : M unit :=
  resolved <- resolve_fan_speed fan_speed ;;
  match resolved with
  | Some code =>
      _try_command "Unable to set fan speed: %s" (miio.set_fan_speed code) ;;;
      ret tt
  | None => ret tt
  end.

(* ================================================================== *)
(** ** Polling *)
(* ================================================================== *)

(** The assignments of [update] once [status()] has returned [st]. *)
Definition store (self : MiroboVacuum) (st : miio.Status) : MiroboVacuum :=
  {| _name := _name self;
     _vacuum := _vacuum self;
     vacuum_state := miio.status st;
     _fan_speeds := Some SPEED_CODE_TO_NAME;
     _fan_speeds_reverse := Some (inverted SPEED_CODE_TO_NAME);
     battery_percentage := miio.battery st;
     _total_clean_count := miio.total_clean_count st;
     _current_fan_speed := miio.fan_speed st;
     _main_brush_time_left := miio.brush_left_time st;
     _main_brush_life_level := miio.brush_life_level st;
     _side_brush_time_left := miio.brush_left_time2 st;
     _side_brush_life_level := miio.brush_life_level2 st;
     _filter_life_level := miio.filter_life_level st;
     _filter_left_time := miio.filter_left_time st |}.

(** [update]: one status fetch; its [OSError] is logged. *)
Definition update : M unit :=
  try_except
    (st <- vacuum_status ;;
     self <- get_self ;;
     set_self (store self st))
    OSError
    (fun exc =>
       _LOGGER_error "Got OSError while fetching the state: %s" [AExn exc]).

(** [observe p s]: the value a property returns (or the exception it
    raises) and the log entries it emits when read on the adapter [s]. *)
Definition observe {A : Type} (p : M A) (s : MiroboVacuum)
  : result A * list log_entry :=
  let (r, w) := p {| self := s; calls := []; log := [] |} in (r, log w).

(** The calls made on the device client and the log entries written by
    running [m] from [w]. *)
Definition new_calls {A : Type} (m : M A) (w : world) : list miio.call :=
  skipn (List.length (calls w)) (calls (snd (m w))).

Definition new_log {A : Type} (m : M A) (w : world) : list log_entry :=
  skipn (List.length (log w)) (log (snd (m w))).

(** A first world: a fresh adapter, nothing called, nothing logged. *)
Definition boot (name : val) (vacuum : miio.DreameVacuum) : world :=
  {| self := __init__ name vacuum; calls := []; log := [] |}.

(** ** Sample runs *)

Definition sample_status (code speed : Z) : miio.Status :=
  {| miio.status := VInt code;
     miio.battery := VInt 87;
     miio.total_clean_count := VInt 12;
     miio.fan_speed := VInt speed;
     miio.brush_left_time := VInt 250;
     miio.brush_life_level := VInt 83;
     miio.brush_left_time2 := VInt 160;
     miio.brush_life_level2 := VInt 80;
     miio.filter_life_level := VInt 70;
     miio.filter_left_time := VInt 105 |}.

(** A device that answers every call. *)
Definition healthy (code speed : Z) : miio.DreameVacuum :=
  {| miio.on_status := fun _ => Ok (sample_status code speed);
     miio.on_command := fun _ _ => Ok tt |}.

(** A device every call to which fails with the exception [e]. *)
Definition failing (e : exn) : miio.DreameVacuum :=
  {| miio.on_status := fun _ => Raise e;
     miio.on_command := fun _ _ => Raise e |}.


(** A device whose first status fetch succeeds and whose later calls all
    fail with [e]. *)
Definition flaky (code speed : Z) (e : exn) : miio.DreameVacuum :=
  {| miio.on_status := fun h =>
       match h with
       | [] => Ok (sample_status code speed)
       | _ :: _ => Raise e
       end;
     miio.on_command := fun _ _ => Raise e |}.

(** A status object that carries the sample snapshot under the status
    value [code], which need not be an integer. *)
Definition sample_status_with (code : val) : miio.Status :=
  {| miio.status := code;
     miio.battery := VInt 87;
     miio.total_clean_count := VInt 12;
     miio.fan_speed := VInt 2;
     miio.brush_left_time := VInt 250;
     miio.brush_life_level := VInt 83;
     miio.brush_left_time2 := VInt 160;
     miio.brush_life_level2 := VInt 80;
     miio.filter_life_level := VInt 70;
     miio.filter_left_time := VInt 105 |}.

(** A device that answers every status fetch with [st] and accepts every
    command. *)
Definition reporting (st : miio.Status) : miio.DreameVacuum :=
  {| miio.on_status := fun _ => Ok st;
     miio.on_command := fun _ _ => Ok tt |}.

(* ================================================================== *)
(** ** The life of an entity *)
(* ================================================================== *)

(** What the host platform does with an entity: it polls it and
    dispatches command actions to it. *)
Inductive action : Type :=
| poll
| locate
| start
| stop
| pause
| return_to_base
| set_fan_speed (requested : val).

Definition perform (a : action) : M unit :=
  match a with
  | poll => update
  | locate => async_locate
  | start => async_start
  | stop => async_stop
  | pause => async_pause
  | return_to_base => async_return_to_base
  | set_fan_speed requested => async_set_fan_speed requested
  end.

(** The world after a sequence of actions; the platform goes on after an
    action that raised. *)
Fixpoint run (acts : list action) (w : world) : world :=
  match acts with
  | [] => w
  | a :: rest => run rest (snd (perform a w))
  end.

(** What the next status fetch would answer. *)
Definition poll_reply (w : world) : result miio.Status :=
  miio.on_status (_vacuum (self w)) (calls w).

(** The number of polls of [acts] whose status fetch returned. *)
Fixpoint successful_polls (acts : list action) (w : world) : nat :=
  match acts with
  | [] => O
  | a :: rest =>
      (match a, poll_reply w with
       | poll, Ok _ => 1
       | _, _ => 0
       end + successful_polls rest (snd (perform a w)))%nat
  end.

(* ================================================================== *)
(** ** The words of the specification *)
(* ================================================================== *)

(** The label the specification gives to each status code. *)
Definition semantic_label (code : Z) : option string :=
  match code with
  | 1 => Some "cleaning"
  | 2 => Some "idle"
  | 3 => Some "paused"
  | 4 => Some "error"
  | 5 => Some "returning"
  | 6 => Some "docked"
  | _ => None
  end.

(** The label the specification gives to any other status code. *)
Definition unknown_label : val := VStr "unknown".

(** The name the specification gives to each fan-speed code. *)
Definition speed_name (code : Z) : option string :=
  match code with
  | 0 => Some "Silent"
  | 1 => Some "Standard"
  | 2 => Some "Medium"
  | 3 => Some "Turbo"
  | _ => None
  end.

(** The four speed names, as the specification lists them. *)
Definition speed_names : list val :=
  [VStr "Silent"; VStr "Standard"; VStr "Medium"; VStr "Turbo"].

(** A key and its value, exchanged: one entry of an inverted dict. *)
Definition swap (kv : val * val) : val * val := (snd kv, fst kv).

(** The actions that are commands. *)
Definition is_command (a : action) : bool :=
  match a with
  | poll => false
  | _ => true
  end.

(** A computation that leaves the adapter object as it found it. *)
Definition keeps_self {A : Type} (m : M A) : Prop :=
  forall w, self (snd (m w)) = self w.

(** The log entries of the commands and of the poll. *)
Definition not_recognized (exc : exn) (speeds : list val) : log_entry :=
  {| level := ERROR;
     fmt := "Fan speed step not recognized (%s). Valid speeds are: %s";
     args := [AExn exc; AList speeds] |}.

Definition fetch_failed (exc : exn) : log_entry :=
  {| level := ERROR;
     fmt := "Got OSError while fetching the state: %s";
     args := [AExn exc] |}.

(* ================================================================== *)
(** ** Basic facts *)
(* ================================================================== *)

Lemma eqb_spec (a b : val) : reflect (a = b) (py.eqb a b).
Proof.
  destruct a as [|x|s], b as [|y|t]; simpl; try (constructor; congruence).
  - destruct (Z.eqb_spec x y); constructor; congruence.
  - destruct (String.eqb_spec s t); constructor; congruence.
Qed.

Lemma skipn_length_app {A : Type} (l r : list A) :
  skipn (List.length l) (l ++ r) = r.
Proof. induction l as [|x l IH]; simpl; auto. Qed.

Lemma skipn_length_self {A : Type} (l : list A) :
  skipn (List.length l) l = [].
Proof. induction l as [|x l IH]; simpl; auto. Qed.

(** No string is a key of a dict whose keys are all integers. *)
Lemma contains_speed_codes_str (s : string) :
  contains SPEED_CODE_TO_NAME (VStr s) = false.
Proof. reflexivity. Qed.

(** No integer is a key of the inverted speed map, whose keys are names. *)
Lemma contains_inverted_int (z : Z) :
  contains (inverted SPEED_CODE_TO_NAME) (VInt z) = false.
Proof. reflexivity. Qed.

Lemma inverted_speed_codes :
  inverted SPEED_CODE_TO_NAME =
  [ (VStr "Silent", VInt 0); (VStr "Standard", VInt 1);
    (VStr "Medium", VInt 2); (VStr "Turbo", VInt 3) ].
Proof. reflexivity. Qed.

(** *** The common guard *)

Lemma try_command_run (msg : string) (func : miio.command) (w : world) :
  _try_command msg func w =
  match miio.on_command (_vacuum (self w)) (calls w) func with
  | Ok _ => (Ok true, called w (miio.command_call func))
  | Raise e =>
      if isinstance e DeviceException
      then (Ok false,
            logged (called w (miio.command_call func))
              {| level := ERROR; fmt := msg; args := [AExn e] |})
      else (Raise e, called w (miio.command_call func))
  end.
Proof.
  unfold _try_command, try_except, bind, async_add_executor_job.
  destruct (miio.on_command _ _ _) as [[]|e]; simpl; [reflexivity|].
  destruct (isinstance e DeviceException); reflexivity.
Qed.

Lemma try_command_self (msg : string) (func : miio.command) (w : world) :
  self (snd (_try_command msg func w)) = self w.
Proof.
  rewrite try_command_run.
  destruct (miio.on_command _ _ _) as [[]|e]; simpl; [reflexivity|].
  destruct (isinstance e DeviceException); reflexivity.
Qed.

Lemma try_command_calls (msg : string) (func : miio.command) (w : world) :
  calls (snd (_try_command msg func w)) = calls w ++ [miio.command_call func].
Proof.
  rewrite try_command_run.
  destruct (miio.on_command _ _ _) as [[]|e]; simpl; [reflexivity|].
  destruct (isinstance e DeviceException); reflexivity.
Qed.

(** The guard turns a [DeviceException] of the device call into [False]
    and one error entry. *)
Lemma try_command_device_exception (msg : string) (func : miio.command)
  (w : world) (e : exn) :
  miio.on_command (_vacuum (self w)) (calls w) func = Raise e ->
  isinstance e DeviceException = true ->
  _try_command msg func w =
  (Ok false,
   logged (called w (miio.command_call func))
     {| level := ERROR; fmt := msg; args := [AExn e] |}).
Proof. intros Hreply Hcls. rewrite try_command_run, Hreply, Hcls. reflexivity. Qed.

(** A command that only forwards to the guard. *)
Lemma forward_self (msg : string) (func : miio.command) (w : world) :
  self (snd ((_try_command msg func ;;; ret tt) w)) = self w.
Proof.
  unfold bind. pose proof (try_command_self msg func w) as H.
  destruct (_try_command msg func w) as [[b|e] w']; exact H.
Qed.

(** *** Polling *)

Lemma update_run (w : world) :
  update w =
  match poll_reply w with
  | Ok st =>
      (Ok tt,
       {| self := store (self w) st;
          calls := calls w ++ [miio.status_call];
          log := log w |})
  | Raise e =>
      if isinstance e OSError
      then (Ok tt,
            logged (called w miio.status_call) (fetch_failed e))
      else (Raise e, called w miio.status_call)
  end.
Proof.
  unfold update, try_except, bind, vacuum_status, poll_reply.
  destruct (miio.on_status _ _) as [st|e]; simpl; [reflexivity|].
  destruct (isinstance e OSError); reflexivity.
Qed.

Lemma update_ok (w : world) (st : miio.Status) :
  poll_reply w = Ok st ->
  update w =
  (Ok tt,
   {| self := store (self w) st;
      calls := calls w ++ [miio.status_call];
      log := log w |}).
Proof. intros H. rewrite update_run, H. reflexivity. Qed.

(** *** Computations that do not touch the adapter object *)

Section KeepsSelf.

Context {A B : Type}.

Lemma keeps_self_ret (a : A) : keeps_self (ret a).
Proof. intros w. reflexivity. Qed.

Lemma keeps_self_lift (r : result A) : keeps_self (lift r).
Proof. intros w. reflexivity. Qed.

Lemma keeps_self_bind (m : M A) (k : A -> M B) :
  keeps_self m -> (forall a, keeps_self (k a)) -> keeps_self (bind m k).
Proof.
  intros Hm Hk w. unfold bind. specialize (Hm w).
  destruct (m w) as [[a|e] w']; simpl in *.
  - rewrite Hk. exact Hm.
  - exact Hm.
Qed.

Lemma keeps_self_try (body : M A) (cls : exn_class) (handler : exn -> M A) :
  keeps_self body -> (forall e, keeps_self (handler e)) ->
  keeps_self (try_except body cls handler).
Proof.
  intros Hb Hh w. unfold try_except. specialize (Hb w).
  destruct (body w) as [[a|e] w']; simpl in *; [exact Hb|].
  destruct (isinstance e cls); simpl; [rewrite Hh|]; exact Hb.
Qed.

End KeepsSelf.

Lemma keeps_self_get : keeps_self get_self.
Proof. intros w. reflexivity. Qed.

Lemma keeps_self_emit (e : log_entry) : keeps_self (emit e).
Proof. intros w. reflexivity. Qed.

Lemma keeps_self_job (func : miio.command) :
  keeps_self (async_add_executor_job func).
Proof. intros w. reflexivity. Qed.

Ltac keeps :=
  repeat (intros;
    first
      [ apply keeps_self_ret
      | apply keeps_self_lift
      | apply keeps_self_get
      | apply keeps_self_emit
      | apply keeps_self_job
      | apply keeps_self_try
      | apply keeps_self_bind
      | match goal with
        | |- keeps_self (if ?b then _ else _) => destruct b
        | |- keeps_self (match ?x with _ => _ end) => destruct x
        end ]).

Lemma keeps_self_try_command (msg : string) (func : miio.command) :
  keeps_self (_try_command msg func).
Proof. unfold _try_command, _LOGGER_error. keeps. Qed.

Lemma keeps_self_state : keeps_self state.
Proof. unfold state, _LOGGER_error. keeps. Qed.

Lemma keeps_self_fan_speed : keeps_self fan_speed.
Proof. unfold fan_speed, _LOGGER_debug. keeps. Qed.

Lemma keeps_self_fan_speed_list : keeps_self fan_speed_list.
Proof. unfold fan_speed_list. keeps. Qed.

Lemma keeps_self_set_fan_speed (requested : val) :
  keeps_self (async_set_fan_speed requested).
Proof.
  unfold async_set_fan_speed, resolve_fan_speed, _LOGGER_error.
  keeps; try apply keeps_self_fan_speed_list; apply keeps_self_try_command.
Qed.

(** Only a poll whose status fetch returns writes the adapter object. *)
Lemma perform_self (a : action) (w : world) :
  self (snd (perform a w)) =
  match a, poll_reply w with
  | poll, Ok st => store (self w) st
  | _, _ => self w
  end.
Proof.
  destruct a; simpl;
    try (apply keeps_self_bind; intros;
         [apply keeps_self_try_command | apply keeps_self_ret]).
  - rewrite update_run. destruct (poll_reply w) as [st|e]; [reflexivity|].
    destruct (isinstance e OSError); reflexivity.
  - apply keeps_self_set_fan_speed.
Qed.

(** *** The fan-speed map along the life of an entity *)

Lemma run_fan_speeds (acts : list action) (w : world) :
  _fan_speeds (self (run acts w)) =
  match successful_polls acts w with
  | O => _fan_speeds (self w)
  | S _ => Some SPEED_CODE_TO_NAME
  end.
Proof.
  revert w. induction acts as [|a rest IH]; intros w; simpl; [reflexivity|].
  rewrite IH, perform_self.
  destruct a; simpl; try reflexivity.
  destruct (poll_reply w) as [st|e]; simpl; [|reflexivity].
  destruct (successful_polls rest _); reflexivity.
Qed.

Lemma polled_fan_speeds (name : val) (vacuum : miio.DreameVacuum)
  (acts : list action) :
  (0 < successful_polls acts (boot name vacuum))%nat ->
  _fan_speeds (self (run acts (boot name vacuum))) = Some SPEED_CODE_TO_NAME.
Proof.
  intros H. rewrite run_fan_speeds.
  destruct (successful_polls acts _); [lia|reflexivity].
Qed.

Lemma unpolled_fan_speeds (name : val) (vacuum : miio.DreameVacuum)
  (acts : list action) :
  successful_polls acts (boot name vacuum) = O ->
  _fan_speeds (self (run acts (boot name vacuum))) = None.
Proof. intros H. rewrite run_fan_speeds, H. reflexivity. Qed.

(** *** Setting the fan speed once the map is in place *)

Lemma set_fan_speed_unparsable (s : string) (w : world) :
  _fan_speeds (self w) = Some SPEED_CODE_TO_NAME ->
  int_of_str s = None ->
  async_set_fan_speed (VStr s) w =
  (Ok tt,
   logged w (not_recognized (Exn ValueError (VStr s))
               [VInt 0; VInt 1; VInt 2; VInt 3])).
Proof.
  intros Hmap Hs.
  unfold async_set_fan_speed, resolve_fan_speed, bind, get_self, lift,
    try_except, fan_speed_list, _LOGGER_error, emit, ret, bind, get_self.
  rewrite Hmap. simpl. rewrite Hs. simpl. rewrite Hmap. reflexivity.
Qed.

Lemma set_fan_speed_parsable (s : string) (z : Z) (w : world) :
  _fan_speeds (self w) = Some SPEED_CODE_TO_NAME ->
  int_of_str s = Some z ->
  async_set_fan_speed (VStr s) w =
  (_try_command "Unable to set fan speed: %s" (miio.set_fan_speed (VInt z)) ;;;
   ret tt) w.
Proof.
  intros Hmap Hs.
  unfold async_set_fan_speed, resolve_fan_speed, bind, get_self, lift,
    try_except, ret.
  rewrite Hmap. simpl. rewrite Hs. reflexivity.
Qed.

Lemma forward_calls (msg : string) (func : miio.command) (w : world) :
  new_calls (_try_command msg func ;;; ret tt) w = [miio.command_call func].
Proof.
  unfold new_calls, bind. pose proof (try_command_calls msg func w) as H.
  destruct (_try_command msg func w) as [[b|e] w']; simpl in *;
    rewrite H; apply skipn_length_app.
Qed.

(** *** The state table *)

Lemma getitem_unlisted_state (c : Z) :
  c < 1 \/ 6 < c ->
  getitem STATE_CODE_TO_STATE (VInt c) = Raise (Exn KeyError (VInt c)).
Proof.
  intros Hc. cbn -[Z.eqb].
  repeat match goal with
         | |- context [Z.eqb ?a c] => destruct (Z.eqb_spec a c); [lia|]
         end.
  reflexivity.
Qed.

(* ================================================================== *)
(** ** The adapter against its specification *)
(* ================================================================== *)

(** C1.  Setting the fan speed at any moment after a poll has succeeded.
    The fan-speed map installed by the poll is keyed by the integer codes,
    so the name "Turbo" is not found in it; [int("Turbo")] then fails, and
    the command logs the error and makes no device call at all (it does not
    resolve the name to code 3).  The numeric string "7" is parsed to the
    integer 7 and forwarded in exactly one device call. *)
Theorem set_fan_speed_turbo_and_seven (name : val) (vacuum : miio.DreameVacuum)
  (acts : list action) :
  (0 < successful_polls acts (boot name vacuum))%nat ->
  async_set_fan_speed (VStr "Turbo") (run acts (boot name vacuum)) =
    (Ok tt,
     logged (run acts (boot name vacuum))
       (not_recognized (Exn ValueError (VStr "Turbo"))
          [VInt 0; VInt 1; VInt 2; VInt 3]))
  /\ new_calls (async_set_fan_speed (VStr "Turbo")) (run acts (boot name vacuum))
     = []
  /\ new_calls (async_set_fan_speed (VStr "7")) (run acts (boot name vacuum))
     = [miio.command_call (miio.set_fan_speed (VInt 7))].
Proof.
  intros Hpoll. apply polled_fan_speeds in Hpoll.
  assert (Hturbo := set_fan_speed_unparsable "Turbo" _ Hpoll eq_refl).
  split; [exact Hturbo|]. split.
  - unfold new_calls. rewrite Hturbo. simpl. apply skipn_length_self.
  - unfold new_calls.
    rewrite (set_fan_speed_parsable "7" 7 _ Hpoll eq_refl).
    apply forward_calls.
Qed.

Lemma set_fan_speed_turbo_and_seven_witness :
  (0 < successful_polls [poll; start] (boot (VStr "robot") (healthy 6 1)))%nat
  /\ new_calls (async_set_fan_speed (VStr "Turbo"))
       (run [poll; start] (boot (VStr "robot") (healthy 6 1))) = []
  /\ new_calls (async_set_fan_speed (VStr "7"))
       (run [poll; start] (boot (VStr "robot") (healthy 6 1)))
     = [miio.command_call (miio.set_fan_speed (VInt 7))].
Proof.
  split; [simpl; lia|].
  apply (set_fan_speed_turbo_and_seven (VStr "robot") (healthy 6 1) [poll; start]).
  simpl; lia.
Defined.

(** C2.  The [fan_speed] property right after a successful poll that
    stored the integer fan-speed code [c].  The reverse map built by the
    poll is keyed by the names, so no integer code has an entry in it: for
    every [c], the codes 0 to 3 included, the property logs the diagnostic
    and returns the raw code, not the name. *)
Theorem fan_speed_returns_raw_code (w : world) (st : miio.Status) (c : Z) :
  poll_reply w = Ok st ->
  miio.status st <> VNone ->
  miio.fan_speed st = VInt c ->
  observe fan_speed (self (snd (update w))) =
    (Ok (VInt c),
     [ {| level := DEBUG;
          fmt := "Unable to find reverse for %s";
          args := [AVal (VInt c)] |} ]).
Proof.
  intros Hreply Hstatus Hspeed.
  rewrite (update_ok w st Hreply).
  unfold observe, fan_speed, bind, get_self. simpl.
  destruct (miio.status st) eqn:E; try congruence;
    simpl; rewrite Hspeed; reflexivity.
Qed.

Lemma fan_speed_returns_raw_code_witness :
  poll_reply (boot (VStr "robot") (healthy 1 3)) = Ok (sample_status 1 3)
  /\ speed_name 3 = Some "Turbo"
  /\ observe fan_speed (self (snd (update (boot (VStr "robot") (healthy 1 3))))) =
     (Ok (VInt 3),
      [ {| level := DEBUG;
           fmt := "Unable to find reverse for %s";
           args := [AVal (VInt 3)] |} ]).
Proof.
  split; [reflexivity|]. split; [reflexivity|].
  apply (fan_speed_returns_raw_code
           (boot (VStr "robot") (healthy 1 3)) (sample_status 1 3) 3).
  - reflexivity.
  - simpl. discriminate.
  - reflexivity.
Defined.

(** C3.  The [fan_speed_list] property at any moment of the life of an
    entity: it is empty as long as no poll has succeeded; once a poll has
    succeeded it is the list of the keys of the fan-speed map, which are the
    integer codes 0, 1, 2, 3 and not the four names. *)
Theorem fan_speed_list_is_codes (name : val) (vacuum : miio.DreameVacuum)
  (acts : list action) :
  observe fan_speed_list (self (run acts (boot name vacuum))) =
    (Ok match successful_polls acts (boot name vacuum) with
        | O => []
        | S _ => [VInt 0; VInt 1; VInt 2; VInt 3]
        end,
     [])
  /\ fst (observe fan_speed_list (self (run acts (boot name vacuum))))
     <> Ok speed_names.
Proof.
  assert (observe fan_speed_list (self (run acts (boot name vacuum))) =
          (Ok match successful_polls acts (boot name vacuum) with
              | O => []
              | S _ => [VInt 0; VInt 1; VInt 2; VInt 3]
              end, [])) as Hlist.
  { unfold observe, fan_speed_list, bind, get_self. simpl.
    rewrite run_fan_speeds.
    destruct (successful_polls acts _); reflexivity. }
  split; [exact Hlist|].
  rewrite Hlist. simpl.
  destruct (successful_polls acts _); discriminate.
Qed.

(** C4 (as amended).  Right after a successful poll that stored an
    integer status code outside 1..6, the [state] property returns [None]
    (not a label), writes exactly one error entry to the log, and raises
    nothing. *)
Theorem state_of_unlisted_code (w : world) (st : miio.Status) (c : Z) :
  poll_reply w = Ok st ->
  miio.status st = VInt c ->
  c < 1 \/ 6 < c ->
  observe state (self (snd (update w))) =
    (Ok VNone,
     [ {| level := ERROR;
          fmt := "STATE_CODE not supported: %s";
          args := [AVal (VInt c)] |} ]).
Proof.
  intros Hreply Hstatus Hc.
  rewrite (update_ok w st Hreply).
  unfold observe, state, bind, get_self, try_except, lift.
  cbn -[getitem]. rewrite Hstatus. cbn -[getitem].
  rewrite (getitem_unlisted_state c Hc). reflexivity.
Qed.

Lemma state_of_unlisted_code_witness :
  poll_reply (boot (VStr "robot") (healthy 7 3)) = Ok (sample_status 7 3)
  /\ observe state (self (snd (update (boot (VStr "robot") (healthy 7 3))))) =
     (Ok VNone,
      [ {| level := ERROR;
           fmt := "STATE_CODE not supported: %s";
           args := [AVal (VInt 7)] |} ]).
Proof.
  split; [reflexivity|].
  apply (state_of_unlisted_code
           (boot (VStr "robot") (healthy 7 3)) (sample_status 7 3) 7).
  - reflexivity.
  - reflexivity.
  - right. lia.
Defined.

(** C4 as stated fails: with the status code 7 stored by a successful
    poll, [state] returns [None] and not the unknown label. *)
Lemma state_unknown_label_counterexample :
  poll_reply (boot (VStr "robot") (healthy 7 3)) = Ok (sample_status 7 3)
  /\ fst (observe state (self (snd (update (boot (VStr "robot") (healthy 7 3))))))
     = Ok VNone
  /\ fst (observe state (self (snd (update (boot (VStr "robot") (healthy 7 3))))))
     <> Ok unknown_label.
Proof.
  split; [reflexivity|]. split; [reflexivity|].
  vm_compute. discriminate.
Qed.

(** C5.  Right after a successful poll that stored a status code from 1
    to 6, the [state] property returns the label the specification gives to
    that code (1 cleaning, 2 idle, 3 paused, 4 error, 5 returning,
    6 docked) and logs nothing. *)
Theorem state_of_listed_code (w : world) (st : miio.Status) (c : Z) :
  poll_reply w = Ok st ->
  miio.status st = VInt c ->
  1 <= c <= 6 ->
  exists label,
    semantic_label c = Some label
    /\ observe state (self (snd (update w))) = (Ok (VStr label), []).
Proof.
  intros Hreply Hstatus Hc.
  rewrite (update_ok w st Hreply).
  unfold observe, state, bind, get_self, try_except. simpl.
  rewrite Hstatus. simpl.
  assert (c = 1 \/ c = 2 \/ c = 3 \/ c = 4 \/ c = 5 \/ c = 6) as Hcases by lia.
  destruct Hcases as [-> | [-> | [-> | [-> | [-> | ->]]]]];
    eexists; split; reflexivity.
Qed.

Lemma state_of_listed_code_witness :
  poll_reply (boot (VStr "robot") (healthy 5 3)) = Ok (sample_status 5 3)
  /\ exists label,
       semantic_label 5 = Some label
       /\ observe state (self (snd (update (boot (VStr "robot") (healthy 5 3)))))
          = (Ok (VStr label), []).
Proof.
  split; [reflexivity|].
  apply (state_of_listed_code
           (boot (VStr "robot") (healthy 5 3)) (sample_status 5 3) 5).
  - reflexivity.
  - reflexivity.
  - lia.
Defined.

(** C6.  A poll whose status fetch raises an [OSError] (or one of its
    subclasses): [update] returns normally, writes one error entry to the
    log, and leaves the adapter object, hence every snapshot field and both
    fan-speed maps, exactly as it was; so every derived property reads as
    before the failure. *)
Theorem update_oserror_keeps_snapshot (w : world) (e : exn) :
  poll_reply w = Raise e ->
  isinstance e OSError = true ->
  fst (update w) = Ok tt
  /\ self (snd (update w)) = self w
  /\ log (snd (update w)) = log w ++ [fetch_failed e]
  /\ observe state (self (snd (update w))) = observe state (self w)
  /\ observe battery_level (self (snd (update w))) = observe battery_level (self w)
  /\ observe fan_speed (self (snd (update w))) = observe fan_speed (self w)
  /\ observe device_state_attributes (self (snd (update w)))
     = observe device_state_attributes (self w)
  /\ observe fan_speed_list (self (snd (update w)))
     = observe fan_speed_list (self w).
Proof.
  intros Hreply Hcls.
  rewrite update_run, Hreply, Hcls. simpl.
  repeat split; reflexivity.
Qed.

Lemma update_oserror_keeps_snapshot_witness :
  poll_reply (snd (update (boot (VStr "robot")
                 (flaky 6 3 (Exn TimeoutError (VStr "timed out"))))))
    = Raise (Exn TimeoutError (VStr "timed out"))
  /\ isinstance (Exn TimeoutError (VStr "timed out")) OSError = true
  /\ fst (observe battery_level
       (self (snd (update (snd (update (boot (VStr "robot")
                 (flaky 6 3 (Exn TimeoutError (VStr "timed out"))))))))))
     = Ok (VInt 87)
  /\ self (snd (update (snd (update (boot (VStr "robot")
                 (flaky 6 3 (Exn TimeoutError (VStr "timed out"))))))))
     = self (snd (update (boot (VStr "robot")
                 (flaky 6 3 (Exn TimeoutError (VStr "timed out")))))).
Proof.
  split; [reflexivity|]. split; [reflexivity|]. split; [reflexivity|].
  apply (update_oserror_keeps_snapshot
           (snd (update (boot (VStr "robot")
                   (flaky 6 3 (Exn TimeoutError (VStr "timed out"))))))
           (Exn TimeoutError (VStr "timed out")));
    reflexivity.
Defined.

(** C7.  [update] guards the status fetch against [OSError] only: an
    exception of any other class raised by the device client, a
    [DeviceException] in particular, leaves [update] as it came, after the
    call and with nothing logged and nothing stored. *)
Theorem update_lets_device_exception_through (w : world) (e : exn) :
  poll_reply w = Raise e ->
  isinstance e OSError = false ->
  update w = (Raise e, called w miio.status_call).
Proof.
  intros Hreply Hcls. rewrite update_run, Hreply, Hcls. reflexivity.
Qed.

Lemma update_lets_device_exception_through_witness :
  poll_reply (boot (VStr "robot") (failing (Exn DeviceException (VStr "no response"))))
    = Raise (Exn DeviceException (VStr "no response"))
  /\ isinstance (Exn DeviceException (VStr "no response")) OSError = false
  /\ fst (update (boot (VStr "robot")
                    (failing (Exn DeviceException (VStr "no response")))))
     = Raise (Exn DeviceException (VStr "no response")).
Proof.
  split; [reflexivity|]. split; [reflexivity|].
  rewrite (update_lets_device_exception_through
             (boot (VStr "robot") (failing (Exn DeviceException (VStr "no response"))))
             (Exn DeviceException (VStr "no response")));
    reflexivity.
Defined.

(** C8.  Setting the fan speed, at any moment after a poll has succeeded,
    to a string that [int] does not accept (no string is a key of the
    fan-speed map): the command returns normally, makes no device call and
    leaves the adapter object untouched; it writes one error entry, whose
    list of valid speeds is the list of the integer codes 0, 1, 2, 3 and not
    the list of the names. *)
Theorem set_fan_speed_unrecognized (name : val) (vacuum : miio.DreameVacuum)
  (acts : list action) (s : string) :
  (0 < successful_polls acts (boot name vacuum))%nat ->
  int_of_str s = None ->
  fst (async_set_fan_speed (VStr s) (run acts (boot name vacuum))) = Ok tt
  /\ new_calls (async_set_fan_speed (VStr s)) (run acts (boot name vacuum)) = []
  /\ self (snd (async_set_fan_speed (VStr s) (run acts (boot name vacuum))))
     = self (run acts (boot name vacuum))
  /\ new_log (async_set_fan_speed (VStr s)) (run acts (boot name vacuum))
     = [not_recognized (Exn ValueError (VStr s)) [VInt 0; VInt 1; VInt 2; VInt 3]].
Proof.
  intros Hpoll Hs. apply polled_fan_speeds in Hpoll.
  unfold new_calls, new_log.
  rewrite (set_fan_speed_unparsable s _ Hpoll Hs). simpl.
  repeat split.
  - apply skipn_length_self.
  - apply skipn_length_app.
Qed.

Lemma set_fan_speed_unrecognized_witness :
  (0 < successful_polls [poll] (boot (VStr "robot") (healthy 6 1)))%nat
  /\ int_of_str "bogus" = None
  /\ new_calls (async_set_fan_speed (VStr "bogus"))
       (run [poll] (boot (VStr "robot") (healthy 6 1))) = []
  /\ new_log (async_set_fan_speed (VStr "bogus"))
       (run [poll] (boot (VStr "robot") (healthy 6 1)))
     = [not_recognized (Exn ValueError (VStr "bogus"))
          [VInt 0; VInt 1; VInt 2; VInt 3]].
Proof.
  split; [simpl; lia|]. split; [reflexivity|].
  destruct (set_fan_speed_unrecognized (VStr "robot") (healthy 6 1) [poll] "bogus")
    as (_ & Hcalls & _ & Hlog).
  - simpl; lia.
  - reflexivity.
  - split; [exact Hcalls | exact Hlog].
Defined.

(** C9.  [async_pause] and [async_stop] make the same device call: each
    calls the client's [stop] exactly once, so the trace of device calls,
    the result and the adapter object after the one are those after the
    other. *)
Theorem pause_same_calls_as_stop (w : world) :
  new_calls async_pause w = [miio.command_call miio.stop]
  /\ new_calls async_stop w = [miio.command_call miio.stop]
  /\ calls (snd (async_pause w)) = calls (snd (async_stop w))
  /\ fst (async_pause w) = fst (async_stop w)
  /\ self (snd (async_pause w)) = self (snd (async_stop w)).
Proof.
  split; [apply forward_calls|]. split; [apply forward_calls|].
  unfold async_pause, async_stop, bind. rewrite !try_command_run.
  destruct (miio.on_command _ _ _) as [[]|e]; simpl; [auto|].
  destruct (isinstance e DeviceException); simpl; auto.
Qed.

(** C10.  Setting the fan speed while no poll has succeeded yet: the
    fan-speed map is still [None], the membership test raises a
    [TypeError], and the exception leaves the command; nothing is logged
    and no device call is made. *)
Theorem set_fan_speed_before_first_poll (name : val) (vacuum : miio.DreameVacuum)
  (acts : list action) (requested : val) :
  successful_polls acts (boot name vacuum) = O ->
  async_set_fan_speed requested (run acts (boot name vacuum)) =
    (Raise (Exn TypeError (VStr "argument of type 'NoneType' is not iterable")),
     run acts (boot name vacuum)).
Proof.
  intros Hnone. apply unpolled_fan_speeds in Hnone.
  unfold async_set_fan_speed, resolve_fan_speed, bind, get_self, lift.
  rewrite Hnone. reflexivity.
Qed.

Lemma set_fan_speed_before_first_poll_witness :
  successful_polls [poll; start]
    (boot (VStr "robot") (failing (Exn OSError (VStr "unreachable")))) = O
  /\ fst (async_set_fan_speed (VStr "Turbo")
       (run [poll; start]
          (boot (VStr "robot") (failing (Exn OSError (VStr "unreachable"))))))
     = Raise (Exn TypeError (VStr "argument of type 'NoneType' is not iterable")).
Proof.
  split; [reflexivity|].
  rewrite (set_fan_speed_before_first_poll (VStr "robot")
             (failing (Exn OSError (VStr "unreachable"))) [poll; start]
             (VStr "Turbo"));
    reflexivity.
Defined.

(* ================================================================== *)
(** ** Further properties of the adapter *)
(* ================================================================== *)

(** *** What a run can change of the adapter object *)

Lemma store_same_identity (s s' : MiroboVacuum) (st : miio.Status) :
  _name s = _name s' -> _vacuum s = _vacuum s' -> store s st = store s' st.
Proof. intros Hn Hv. unfold store. rewrite Hn, Hv. reflexivity. Qed.

Lemma perform_identity (a : action) (w : world) :
  _name (self (snd (perform a w))) = _name (self w)
  /\ _vacuum (self (snd (perform a w))) = _vacuum (self w).
Proof.
  rewrite perform_self.
  destruct a; try (split; reflexivity).
  destruct (poll_reply w); split; reflexivity.
Qed.

Lemma run_identity (acts : list action) (w : world) :
  _name (self (run acts w)) = _name (self w)
  /\ _vacuum (self (run acts w)) = _vacuum (self w).
Proof.
  revert w. induction acts as [|a rest IH]; intros w; simpl.
  - split; reflexivity.
  - destruct (IH (snd (perform a w))) as [Hn Hv].
    destruct (perform_identity a w) as [Hn' Hv'].
    split; congruence.
Qed.

Lemma run_self_unpolled (acts : list action) (w : world) :
  successful_polls acts w = O -> self (run acts w) = self w.
Proof.
  revert w. induction acts as [|a rest IH]; intros w H; simpl in *.
  - reflexivity.
  - apply Nat.eq_add_0 in H. destruct H as [Ha Hrest].
    rewrite (IH _ Hrest), perform_self.
    destruct a; try reflexivity.
    destruct (poll_reply w); [discriminate|reflexivity].
Qed.

(** X1.  As long as no poll has succeeded, whatever polls and commands
    were attempted, the adapter object is the one [__init__] built: [state],
    [battery_level], [fan_speed] and [device_state_attributes] return [None],
    [fan_speed_list] is empty, and reading them logs nothing. *)
Theorem unpolled_entity_reads_nothing (name : val) (vacuum : miio.DreameVacuum)
  (acts : list action) :
  successful_polls acts (boot name vacuum) = O ->
  self (run acts (boot name vacuum)) = __init__ name vacuum
  /\ observe state (self (run acts (boot name vacuum))) = (Ok VNone, [])
  /\ observe battery_level (self (run acts (boot name vacuum))) = (Ok VNone, [])
  /\ observe fan_speed (self (run acts (boot name vacuum))) = (Ok VNone, [])
  /\ observe device_state_attributes (self (run acts (boot name vacuum)))
     = (Ok None, [])
  /\ observe fan_speed_list (self (run acts (boot name vacuum))) = (Ok [], []).
Proof.
  intros H. rewrite (run_self_unpolled _ _ H). simpl.
  repeat split; reflexivity.
Qed.

Lemma unpolled_entity_reads_nothing_witness :
  successful_polls [poll; locate; poll]
    (boot (VStr "robot") (failing (Exn ConnectionError (VStr "refused")))) = O
  /\ observe battery_level
       (self (run [poll; locate; poll]
          (boot (VStr "robot") (failing (Exn ConnectionError (VStr "refused"))))))
     = (Ok VNone, []).
Proof.
  split; [reflexivity|].
  apply (unpolled_entity_reads_nothing (VStr "robot")
           (failing (Exn ConnectionError (VStr "refused"))) [poll; locate; poll]).
  reflexivity.
Defined.

(** X2.  Nothing the platform does to an entity changes its name or
    replaces its device client: after any sequence of polls and commands the
    [name] property returns the name given at construction and [_vacuum] is
    the client given at construction. *)
Theorem entity_identity_is_constant (given : val) (vacuum : miio.DreameVacuum)
  (acts : list action) :
  observe name (self (run acts (boot given vacuum))) = (Ok given, [])
  /\ _vacuum (self (run acts (boot given vacuum))) = vacuum.
Proof.
  destruct (run_identity acts (boot given vacuum)) as [Hn Hv].
  split; [|exact Hv].
  unfold observe, name, bind, get_self, ret. simpl. rewrite Hn. reflexivity.
Qed.

(** X3.  A poll whose status fetch returns overwrites the whole snapshot:
    whatever happened to the entity before, the adapter object after the
    poll is the one a first poll on a fresh adapter would have produced from
    the same status object.  The poll returns normally, makes exactly one
    device call (the status fetch) and logs nothing. *)
Theorem successful_poll_overwrites_snapshot (name : val)
  (vacuum : miio.DreameVacuum) (acts : list action) (st : miio.Status) :
  poll_reply (run acts (boot name vacuum)) = Ok st ->
  update (run acts (boot name vacuum)) =
    (Ok tt,
     {| self := store (__init__ name vacuum) st;
        calls := calls (run acts (boot name vacuum)) ++ [miio.status_call];
        log := log (run acts (boot name vacuum)) |}).
Proof.
  intros H. rewrite (update_ok _ st H).
  destruct (run_identity acts (boot name vacuum)) as [Hn Hv].
  rewrite (store_same_identity _ (__init__ name vacuum) st Hn Hv).
  reflexivity.
Qed.

Lemma successful_poll_overwrites_snapshot_witness :
  poll_reply (run [poll; set_fan_speed (VStr "bogus"); stop]
                (boot (VStr "robot") (healthy 1 3)))
    = Ok (sample_status 1 3)
  /\ self (snd (update (run [poll; set_fan_speed (VStr "bogus"); stop]
                          (boot (VStr "robot") (healthy 1 3)))))
     = store (__init__ (VStr "robot") (healthy 1 3)) (sample_status 1 3).
Proof.
  split; [reflexivity|].
  rewrite (successful_poll_overwrites_snapshot (VStr "robot") (healthy 1 3)
             [poll; set_fan_speed (VStr "bogus"); stop] (sample_status 1 3));
    reflexivity.
Defined.

(** *** What the properties read after a successful poll *)

(** X4.  Right after a successful poll that reported a status,
    [battery_level] is the battery value of the status object and
    [device_state_attributes] is the dict of eight keys, in this order, each
    with the matching attribute of the status object: the main brush reads
    [brush_left_time] and [brush_life_level], the side brush reads
    [brush_left_time2] and [brush_life_level2], and the key
    ["total_cleaning_count"] carries [total_clean_count].  Nothing is
    logged. *)
Theorem snapshot_read_back (w : world) (st : miio.Status) :
  poll_reply w = Ok st ->
  miio.status st <> VNone ->
  observe battery_level (self (snd (update w))) = (Ok (miio.battery st), [])
  /\ observe device_state_attributes (self (snd (update w))) =
     (Ok (Some
        [ (VStr "fan_speed", miio.fan_speed st);
          (VStr "main_brush_time_left", miio.brush_left_time st);
          (VStr "main_brush_life_level", miio.brush_life_level st);
          (VStr "side_brush_time_left", miio.brush_left_time2 st);
          (VStr "side_brush_life_level", miio.brush_life_level2 st);
          (VStr "filter_life_level", miio.filter_life_level st);
          (VStr "filter_left_time", miio.filter_left_time st);
          (VStr "total_cleaning_count", miio.total_clean_count st) ]),
      []).
Proof.
  intros Hreply Hstatus. rewrite (update_ok w st Hreply).
  unfold observe, battery_level, device_state_attributes, bind, get_self.
  simpl. destruct (miio.status st); try congruence; split; reflexivity.
Qed.

Lemma snapshot_read_back_witness :
  poll_reply (boot (VStr "robot") (healthy 2 1)) = Ok (sample_status 2 1)
  /\ miio.status (sample_status 2 1) <> VNone
  /\ observe battery_level (self (snd (update (boot (VStr "robot") (healthy 2 1)))))
     = (Ok (VInt 87), []).
Proof.
  split; [reflexivity|]. split; [simpl; discriminate|].
  apply (snapshot_read_back (boot (VStr "robot") (healthy 2 1))
           (sample_status 2 1)).
  - reflexivity.
  - simpl. discriminate.
Defined.

(** X5.  Every snapshot property is gated on the stored status, not on
    its own field: after a successful poll whose status object carries
    [None] as status, [state], [battery_level], [fan_speed] and
    [device_state_attributes] all return [None] although the battery, the
    fan speed and the consumables were stored; [fan_speed_list], which is
    gated on the fan-speed map, is then not empty. *)
Theorem poll_without_status_hides_snapshot (w : world) (st : miio.Status) :
  poll_reply w = Ok st ->
  miio.status st = VNone ->
  battery_percentage (self (snd (update w))) = miio.battery st
  /\ observe state (self (snd (update w))) = (Ok VNone, [])
  /\ observe battery_level (self (snd (update w))) = (Ok VNone, [])
  /\ observe fan_speed (self (snd (update w))) = (Ok VNone, [])
  /\ observe device_state_attributes (self (snd (update w))) = (Ok None, [])
  /\ observe fan_speed_list (self (snd (update w)))
     = (Ok [VInt 0; VInt 1; VInt 2; VInt 3], []).
Proof.
  intros Hreply Hstatus. rewrite (update_ok w st Hreply).
  unfold observe, state, battery_level, fan_speed, device_state_attributes,
    fan_speed_list, bind, get_self.
  simpl. rewrite Hstatus. repeat split; reflexivity.
Qed.

Lemma poll_without_status_hides_snapshot_witness :
  poll_reply (boot (VStr "robot") (reporting (sample_status_with VNone)))
    = Ok (sample_status_with VNone)
  /\ battery_percentage
       (self (snd (update (boot (VStr "robot")
                             (reporting (sample_status_with VNone))))))
     = VInt 87
  /\ observe battery_level
       (self (snd (update (boot (VStr "robot")
                             (reporting (sample_status_with VNone))))))
     = (Ok VNone, []).
Proof.
  split; [reflexivity|].
  destruct (poll_without_status_hides_snapshot
              (boot (VStr "robot") (reporting (sample_status_with VNone)))
              (sample_status_with VNone))
    as (Hstored & _ & Hlevel & _).
  - reflexivity.
  - reflexivity.
  - split; [exact Hstored | exact Hlevel].
Defined.

Lemma semantic_label_getitem (z : Z) (label : string) :
  semantic_label z = Some label ->
  getitem STATE_CODE_TO_STATE (VInt z) = Ok (VStr label).
Proof.
  intros H.
  destruct z as [|p|p]; try discriminate.
  repeat first
    [ discriminate
    | injection H as <-; reflexivity
    | match goal with q : positive |- _ => destruct q; cbn in H end ].
Qed.

(** X6.  [state] converts the stored status with [int] and guards the
    table lookup against [KeyError] only.  When the stored status is a string
    that is no integer literal, the [ValueError] of [int] leaves the
    property: nothing is returned and nothing is logged. *)
Theorem state_of_unparsable_status (w : world) (st : miio.Status) (s : string) :
  poll_reply w = Ok st ->
  miio.status st = VStr s ->
  int_of_str s = None ->
  observe state (self (snd (update w))) = (Raise (Exn ValueError (VStr s)), []).
Proof.
  intros Hreply Hstatus Hs. rewrite (update_ok w st Hreply).
  unfold observe, state, bind, get_self, try_except, lift.
  simpl. rewrite Hstatus. simpl. rewrite Hs. reflexivity.
Qed.

Lemma state_of_unparsable_status_witness :
  poll_reply (boot (VStr "robot") (reporting (sample_status_with (VStr "charging"))))
    = Ok (sample_status_with (VStr "charging"))
  /\ int_of_str "charging" = None
  /\ observe state
       (self (snd (update (boot (VStr "robot")
                             (reporting (sample_status_with (VStr "charging")))))))
     = (Raise (Exn ValueError (VStr "charging")), []).
Proof.
  split; [reflexivity|]. split; [reflexivity|].
  apply (state_of_unparsable_status
           (boot (VStr "robot") (reporting (sample_status_with (VStr "charging"))))
           (sample_status_with (VStr "charging")) "charging");
    reflexivity.
Defined.

(** X7.  A stored status that is the string form of a code reads like the
    code: when [int] accepts the string as the integer [z] and the
    specification gives [z] a label, [state] returns that label and logs
    nothing. *)
Theorem state_of_numeric_string_status (w : world) (st : miio.Status)
  (s : string) (z : Z) (label : string) :
  poll_reply w = Ok st ->
  miio.status st = VStr s ->
  int_of_str s = Some z ->
  semantic_label z = Some label ->
  observe state (self (snd (update w))) = (Ok (VStr label), []).
Proof.
  intros Hreply Hstatus Hs Hlabel. rewrite (update_ok w st Hreply).
  unfold observe, state, bind, get_self, try_except, lift.
  cbn -[getitem]. rewrite Hstatus. cbn -[getitem]. rewrite Hs.
  rewrite (semantic_label_getitem z label Hlabel). reflexivity.
Qed.

Lemma state_of_numeric_string_status_witness :
  poll_reply (boot (VStr "robot") (reporting (sample_status_with (VStr " 5 "))))
    = Ok (sample_status_with (VStr " 5 "))
  /\ int_of_str " 5 " = Some 5
  /\ semantic_label 5 = Some "returning"
  /\ observe state
       (self (snd (update (boot (VStr "robot")
                             (reporting (sample_status_with (VStr " 5 ")))))))
     = (Ok (VStr "returning"), []).
Proof.
  split; [reflexivity|]. split; [reflexivity|]. split; [reflexivity|].
  apply (state_of_numeric_string_status
           (boot (VStr "robot") (reporting (sample_status_with (VStr " 5 "))))
           (sample_status_with (VStr " 5 ")) " 5 " 5 "returning");
    reflexivity.
Defined.

(** *** What a command can do *)

Lemma forward_run (msg : string) (func : miio.command) (w : world) :
  (_try_command msg func ;;; ret tt) w =
  match miio.on_command (_vacuum (self w)) (calls w) func with
  | Ok _ => (Ok tt, called w (miio.command_call func))
  | Raise e =>
      if isinstance e DeviceException
      then (Ok tt,
            logged (called w (miio.command_call func))
              {| level := ERROR; fmt := msg; args := [AExn e] |})
      else (Raise e, called w (miio.command_call func))
  end.
Proof.
  unfold bind at 1. rewrite try_command_run.
  destruct (miio.on_command _ _ _) as [[]|e]; [reflexivity|].
  destruct (isinstance e DeviceException); reflexivity.
Qed.

Lemma set_fan_speed_run (requested : val) (w : world) :
  async_set_fan_speed requested w =
  match _fan_speeds (self w) with
  | None =>
      (Raise (Exn TypeError (VStr "argument of type 'NoneType' is not iterable")),
       w)
  | Some d =>
      if contains d requested then
        match getitem d requested with
        | Ok code =>
            (_try_command "Unable to set fan speed: %s" (miio.set_fan_speed code) ;;;
             ret tt) w
        | Raise e => (Raise e, w)
        end
      else
        match py.int requested with
        | Ok n =>
            (_try_command "Unable to set fan speed: %s"
               (miio.set_fan_speed (VInt n)) ;;;
             ret tt) w
        | Raise e =>
            if isinstance e ValueError
            then (Ok tt, logged w (not_recognized e (if truthy (Some d) then keys d else [])))
            else (Raise e, w)
        end
  end.
Proof.
  unfold async_set_fan_speed, resolve_fan_speed.
  unfold bind at 1 2 3. unfold get_self, lift.
  destruct (_fan_speeds (self w)) as [d|] eqn:Hmap; simpl; [|reflexivity].
  destruct (contains d requested).
  - unfold bind at 1, lift. destruct (getitem d requested); reflexivity.
  - unfold try_except, bind at 1, lift.
    destruct (py.int requested) as [n|e]; [reflexivity|].
    destruct (isinstance e ValueError); [|reflexivity].
    unfold fan_speed_list, _LOGGER_error, emit, bind, get_self, ret.
    rewrite Hmap. destruct d; reflexivity.
Qed.

Ltac unfold_command :=
  unfold perform, async_locate, async_start, async_stop, async_pause,
    async_return_to_base, is_command in *.

Ltac bounded :=
  simpl;
  first
    [ solve [exists [], []; rewrite ?app_nil_r; simpl;
             repeat split; first [reflexivity | lia]]
    | solve [eexists (cons _ nil), []; rewrite ?app_nil_r; simpl;
             repeat split; first [reflexivity | lia]]
    | solve [eexists [], (cons _ nil); rewrite ?app_nil_r; simpl;
             repeat split; first [reflexivity | lia]]
    | solve [eexists (cons _ nil), (cons _ nil); simpl;
             repeat split; first [reflexivity | lia]] ].

Lemma forward_bounded (msg : string) (func : miio.command) (w : world) :
  exists cs ls,
    calls (snd ((_try_command msg func ;;; ret tt) w)) = calls w ++ cs
    /\ log (snd ((_try_command msg func ;;; ret tt) w)) = log w ++ ls
    /\ (List.length cs <= 1)%nat /\ (List.length ls <= 1)%nat.
Proof.
  rewrite forward_run.
  destruct (miio.on_command _ _ _) as [[]|e]; [bounded|].
  destruct (isinstance e DeviceException); bounded.
Qed.

(** One action: at most one device call and at most one log entry, both
    appended. *)
Lemma perform_bounded (a : action) (w : world) :
  exists cs ls,
    calls (snd (perform a w)) = calls w ++ cs
    /\ log (snd (perform a w)) = log w ++ ls
    /\ (List.length cs <= 1)%nat /\ (List.length ls <= 1)%nat.
Proof.
  destruct a; unfold_command; try apply forward_bounded.
  - rewrite update_run. destruct (poll_reply w) as [st|e]; [bounded|].
    destruct (isinstance e OSError); bounded.
  - rewrite set_fan_speed_run.
    destruct (_fan_speeds (self w)) as [d|]; [|bounded].
    destruct (contains d requested).
    + destruct (getitem d requested); [apply forward_bounded | bounded].
    + destruct (py.int requested) as [n|e]; [apply forward_bounded|].
      destruct (isinstance e ValueError); bounded.
Qed.

(** X8.  Nothing is retried and nothing is erased: whatever the device
    answers, a sequence of polls and commands only appends to the trace of
    device calls and to the log, and it appends at most one call and at most
    one log entry per action. *)
Theorem run_effects_bounded (acts : list action) (w : world) :
  exists cs ls,
    calls (run acts w) = calls w ++ cs
    /\ log (run acts w) = log w ++ ls
    /\ (List.length cs <= List.length acts)%nat
    /\ (List.length ls <= List.length acts)%nat.
Proof.
  revert w. induction acts as [|a rest IH]; intros w; simpl.
  - exists [], []. rewrite !app_nil_r. repeat split; reflexivity.
  - destruct (perform_bounded a w) as (cs1 & ls1 & Hc1 & Hl1 & Hcs1 & Hls1).
    destruct (IH (snd (perform a w))) as (cs2 & ls2 & Hc2 & Hl2 & Hcs2 & Hls2).
    exists (cs1 ++ cs2), (ls1 ++ ls2).
    rewrite Hc2, Hc1, Hl2, Hl1, <- !app_assoc, !length_app.
    repeat split; lia.
Qed.

(** X9.  No command lets a [DeviceException] out: when a command raises,
    the exception is not a [DeviceException] (it is an exception of another
    class raised by the device call, or a [TypeError] of the fan-speed
    lookup). *)
Theorem commands_never_raise_device_exception (a : action) (w : world) (e : exn) :
  is_command a = true ->
  fst (perform a w) = Raise e ->
  isinstance e DeviceException = false.
Proof.
  assert (Hforward : forall msg func,
    fst ((_try_command msg func ;;; ret tt) w) = Raise e ->
    isinstance e DeviceException = false).
  { intros msg func H. rewrite forward_run in H.
    destruct (miio.on_command _ _ _) as [[]|e0]; [discriminate|].
    destruct (isinstance e0 DeviceException) eqn:Hcls; [discriminate|].
    simpl in H. congruence. }
  intros Hcmd H.
  destruct a; unfold_command; try discriminate Hcmd; try (eapply Hforward; eassumption).
  rewrite set_fan_speed_run in H.
  destruct (_fan_speeds (self w)) as [d|].
  - destruct (contains d requested) eqn:Hin.
    + destruct (getitem d requested) as [code|e0] eqn:Hget.
      * eapply Hforward; eassumption.
      * simpl in H. injection H as <-.
        clear -Hget. induction d as [|[k v] d IH]; simpl in Hget.
        -- injection Hget as <-. reflexivity.
        -- destruct (py.eqb k requested); [discriminate|auto].
    + destruct requested as [|z|s]; simpl in H.
      * injection H as <-. reflexivity.
      * eapply Hforward; eassumption.
      * destruct (int_of_str s); [eapply Hforward; eassumption|].
        simpl in H. discriminate.
  - simpl in H. injection H as <-. reflexivity.
Qed.

Lemma commands_never_raise_device_exception_witness :
  is_command start = true
  /\ fst (perform start
            (boot (VStr "robot") (failing (Exn OSError (VStr "unreachable")))))
     = Raise (Exn OSError (VStr "unreachable"))
  /\ isinstance (Exn OSError (VStr "unreachable")) DeviceException = false.
Proof.
  split; [reflexivity|]. split; [reflexivity|].
  apply (commands_never_raise_device_exception start
           (boot (VStr "robot") (failing (Exn OSError (VStr "unreachable")))));
    reflexivity.
Defined.

(** X10.  With a device that answers every command with a
    [DeviceException], each of the five plain commands returns normally,
    leaves the adapter object untouched, makes its one device call ([find],
    [start], [stop], [stop], [return_home]) and writes one error entry made
    of its own message and the exception. *)
Theorem commands_on_unreachable_device (w : world) (e : exn) :
  (forall func, miio.on_command (_vacuum (self w)) (calls w) func = Raise e) ->
  isinstance e DeviceException = true ->
  async_locate w =
    (Ok tt, logged (called w (miio.command_call miio.find))
              {| level := ERROR; fmt := "Unable to locate the botvac: %s";
                 args := [AExn e] |})
  /\ async_start w =
    (Ok tt, logged (called w (miio.command_call miio.start))
              {| level := ERROR; fmt := "Unable to start the vacuum: %s";
                 args := [AExn e] |})
  /\ async_stop w =
    (Ok tt, logged (called w (miio.command_call miio.stop))
              {| level := ERROR; fmt := "Unable to stop: %s";
                 args := [AExn e] |})
  /\ async_pause w =
    (Ok tt, logged (called w (miio.command_call miio.stop))
              {| level := ERROR; fmt := "Unable to set start/pause: %s";
                 args := [AExn e] |})
  /\ async_return_to_base w =
    (Ok tt, logged (called w (miio.command_call miio.return_home))
              {| level := ERROR; fmt := "Unable to return home: %s";
                 args := [AExn e] |}).
Proof.
  intros Hdown Hcls.
  unfold async_locate, async_start, async_stop, async_pause, async_return_to_base.
  rewrite !forward_run, !Hdown, Hcls. repeat split; reflexivity.
Qed.

Lemma commands_on_unreachable_device_witness :
  (forall func,
     miio.on_command
       (_vacuum (self (boot (VStr "robot")
                         (failing (Exn DeviceException (VStr "no response"))))))
       (calls (boot (VStr "robot")
                 (failing (Exn DeviceException (VStr "no response")))))
       func
     = Raise (Exn DeviceException (VStr "no response")))
  /\ isinstance (Exn DeviceException (VStr "no response")) DeviceException = true
  /\ fst (async_return_to_base
            (boot (VStr "robot")
               (failing (Exn DeviceException (VStr "no response")))))
     = Ok tt.
Proof.
  split; [intros func; reflexivity|]. split; [reflexivity|].
  destruct (commands_on_unreachable_device
              (boot (VStr "robot")
                 (failing (Exn DeviceException (VStr "no response"))))
              (Exn DeviceException (VStr "no response")))
    as (_ & _ & _ & _ & Hbase).
  - intros func. reflexivity.
  - reflexivity.
  - rewrite Hbase. reflexivity.
Defined.

(** X11.  Once a poll has succeeded, every string that [int] accepts is
    forwarded as the integer it denotes, in exactly one [set_fan_speed] call
    and with no check against the codes 0 to 3: a negative or an unlisted
    code goes to the device as it is.  The adapter object is not changed. *)
Theorem set_fan_speed_forwards_any_literal (name : val)
  (vacuum : miio.DreameVacuum) (acts : list action) (s : string) (z : Z) :
  (0 < successful_polls acts (boot name vacuum))%nat ->
  int_of_str s = Some z ->
  new_calls (async_set_fan_speed (VStr s)) (run acts (boot name vacuum))
    = [miio.command_call (miio.set_fan_speed (VInt z))]
  /\ self (snd (async_set_fan_speed (VStr s) (run acts (boot name vacuum))))
     = self (run acts (boot name vacuum)).
Proof.
  intros Hpoll Hs. apply polled_fan_speeds in Hpoll. split.
  - unfold new_calls. rewrite (set_fan_speed_parsable s z _ Hpoll Hs).
    apply forward_calls.
  - apply keeps_self_set_fan_speed.
Qed.

Lemma set_fan_speed_forwards_any_literal_witness :
  (0 < successful_polls [poll] (boot (VStr "robot") (healthy 6 1)))%nat
  /\ int_of_str " -5" = Some (-5)
  /\ new_calls (async_set_fan_speed (VStr " -5"))
       (run [poll] (boot (VStr "robot") (healthy 6 1)))
     = [miio.command_call (miio.set_fan_speed (VInt (-5)))].
Proof.
  split; [simpl; lia|]. split; [reflexivity|].
  apply (set_fan_speed_forwards_any_literal (VStr "robot") (healthy 6 1)
           [poll] " -5" (-5)).
  - simpl; lia.
  - reflexivity.
Defined.

(** X12.  The three other plain commands each make exactly one device
    call, whatever the device answers and whether or not a poll has
    succeeded: [async_locate] calls [find], [async_start] calls [start],
    [async_return_to_base] calls [return_home]; none changes the adapter
    object. *)
Theorem plain_commands_forward_once (w : world) :
  new_calls async_locate w = [miio.command_call miio.find]
  /\ new_calls async_start w = [miio.command_call miio.start]
  /\ new_calls async_return_to_base w = [miio.command_call miio.return_home]
  /\ self (snd (async_locate w)) = self w
  /\ self (snd (async_start w)) = self w
  /\ self (snd (async_return_to_base w)) = self w.
Proof.
  unfold async_locate, async_start, async_return_to_base.
  repeat split; first [apply forward_calls | apply forward_self].
Qed.

(** *** The two fan-speed maps *)

Lemma setitem_fresh (d : dict) (k v : val) :
  ~ In k (keys d) -> setitem d k v = d ++ [(k, v)].
Proof.
  induction d as [|[k' v'] d IH]; simpl; intros Hfresh; [reflexivity|].
  destruct (eqb_spec k' k) as [->|Hne].
  - exfalso. apply Hfresh. left. reflexivity.
  - rewrite IH; [reflexivity|]. intros Hin. apply Hfresh. right. exact Hin.
Qed.

Lemma invert_onto (l acc : dict) :
  NoDup (keys acc ++ map snd l) ->
  fold_left (fun acc kv => setitem acc (snd kv) (fst kv)) l acc
  = acc ++ map swap l.
Proof.
  revert acc. induction l as [|[k v] l IH]; intros acc Hnd; simpl.
  - symmetry. apply app_nil_r.
  - simpl in Hnd. rewrite setitem_fresh.
    + rewrite IH.
      * rewrite <- app_assoc. reflexivity.
      * unfold keys. rewrite map_app, <- app_assoc. exact Hnd.
    + apply NoDup_remove_2 in Hnd. intros Hin. apply Hnd.
      apply in_or_app. left. exact Hin.
Qed.

(** Inverting a dict whose values are pairwise distinct exchanges each
    key with its value and keeps the order of the entries. *)
Lemma inverted_distinct_values (d : dict) :
  NoDup (map snd d) -> inverted d = map swap d.
Proof. intros Hnd. unfold inverted, items. apply (invert_onto d []). exact Hnd. Qed.

Lemma getitem_In (d : dict) (k v : val) :
  NoDup (keys d) -> (getitem d k = Ok v <-> In (k, v) d).
Proof.
  induction d as [|[k' v'] d IH]; simpl; intros Hnd.
  - split; [discriminate|tauto].
  - inversion Hnd as [|? ? Hnotin Hnd']; subst.
    destruct (eqb_spec k' k) as [->|Hne].
    + split.
      * intros H. injection H as <-. left. reflexivity.
      * intros [H|H]; [congruence|].
        exfalso. apply Hnotin. apply (in_map fst) in H. exact H.
    + rewrite (IH Hnd'). split; [tauto|].
      intros [H|H]; [congruence|exact H].
Qed.

(** A lookup in the inverted dict is the lookup in the dict read
    backwards, when neither the keys nor the values repeat. *)
Lemma inverted_getitem (d : dict) (k v : val) :
  NoDup (keys d) -> NoDup (map snd d) ->
  (getitem d k = Ok v <-> getitem (inverted d) v = Ok k).
Proof.
  intros Hk Hv. rewrite (inverted_distinct_values d Hv).
  rewrite (getitem_In d k v Hk), getitem_In.
  - rewrite in_map_iff. split.
    + intros H. exists (k, v). split; [reflexivity|exact H].
    + intros [[k0 v0] [Heq H]]. unfold swap in Heq. simpl in Heq. congruence.
  - unfold keys. rewrite map_map. simpl. exact Hv.
Qed.

Lemma speed_codes_distinct :
  NoDup (keys SPEED_CODE_TO_NAME) /\ NoDup (map snd SPEED_CODE_TO_NAME).
Proof.
  split; simpl;
    repeat (constructor; [simpl; intuition discriminate|]); constructor.
Qed.

(** X13.  The two fan-speed maps a successful poll installs are inverse
    to each other: [self._fan_speeds[k]] is [v] exactly when
    [self._fan_speeds_reverse[v]] is [k].  In particular the forward map takes
    a code to its name and the reverse map takes a name to its code. *)
Theorem polled_maps_are_inverse (w : world) (st : miio.Status) (k v : val) :
  poll_reply w = Ok st ->
  (subscript (_fan_speeds (self (snd (update w)))) k = Ok v
   <-> subscript (_fan_speeds_reverse (self (snd (update w)))) v = Ok k).
Proof.
  intros Hreply. rewrite (update_ok w st Hreply). simpl.
  destruct speed_codes_distinct as [Hk Hv].
  apply (inverted_getitem SPEED_CODE_TO_NAME k v Hk Hv).
Qed.

Lemma polled_maps_are_inverse_witness :
  poll_reply (boot (VStr "robot") (healthy 6 3)) = Ok (sample_status 6 3)
  /\ subscript
       (_fan_speeds_reverse (self (snd (update (boot (VStr "robot") (healthy 6 3))))))
       (VStr "Turbo")
     = Ok (VInt 3).
Proof.
  split; [reflexivity|].
  apply (polled_maps_are_inverse (boot (VStr "robot") (healthy 6 3))
           (sample_status 6 3) (VInt 3) (VStr "Turbo")).
  - reflexivity.
  - reflexivity.
Defined.
